(** * keycloak-admin-client: user-storage, identity-provider and
      authentication-flow wrappers

    A shallow embedding of the three resource modules
    ([user-storage], [identity-provider], [realm-authentication-flows.js])
    and of the request/response contract they share.  Every exported
    operation builds a request descriptor, hands it to the HTTP transport and
    settles a promise from the transport's callback arguments. *)

From Stdlib Require Import ZArith Ascii String List Lia DecimalString.
From stdpp Require Import gmap strings list.

#[local] Set Warnings "-register-all".
Local Open Scope string_scope.
Local Open Scope Z_scope.

(** ** JavaScript values *)

(** The JSON-shaped values that travel through the wrappers: call arguments,
    request bodies, query objects and decoded response bodies.  Objects keep
    their properties in insertion order.  Numbers are restricted to integers;
    nothing in the modules does arithmetic on them. *)
Inductive value : Type :=
| VUndefined
| VNull
| VBool (b : bool)
| VNum (n : Z)
| VStr (s : string)
| VObj (props : list (string * value))
| VArr (elems : list value).

(** [{}] *)
Definition empty_object : value := VObj [].

(** ToBoolean: [undefined], [null], [false], [0] and the empty string are
    falsy, everything else (every object and array included) is truthy. *)
Definition truthy (v : value) : bool :=
  match v with
  | VUndefined | VNull => false
  | VBool b => b
  | VNum n => negb (n =? 0)
  | VStr s => negb (String.eqb s "")
  | VObj _ | VArr _ => true
  end.

(** [a || b] *)
Definition js_or (a b : value) : value := if truthy a then a else b.

(** Own-property lookup in a property list. *)
Fixpoint lookup_prop (k : string) (props : list (string * value)) : option value :=
  match props with
  | [] => None
  | (k', v) :: rest => if String.eqb k k' then Some v else lookup_prop k rest
  end.

(** [v.k] for a value [v] that is neither [undefined] nor [null] and a key
    [k] that is no built-in member ([id], [alias]): a missing property reads
    as [undefined]; strings, numbers, booleans and arrays have no such
    property. *)
Definition get (v : value) (k : string) : value :=
  match v with
  | VObj props => default VUndefined (lookup_prop k props)
  | _ => VUndefined
  end.

Definition string_of_Z (n : Z) : string := NilEmpty.string_of_int (Z.to_int n).

(** ToString, as applied by a template literal [`${v}`], for the values
    that JavaScript converts without throwing and prints digit by digit, the
    [stringifiable] ones below.  Outside them the code departs from this
    function: an object with an own [toString] property (in a JSON-shaped
    value it is never callable) makes the template literal throw a
    TypeError, and an integer beyond the safe range is printed rounded, in
    exponent form from 10^21 on. *)
Fixpoint toString (v : value) : string :=
  match v with
  | VUndefined => "undefined"
  | VNull => "null"
  | VBool true => "true"
  | VBool false => "false"
  | VNum n => string_of_Z n
  | VStr s => s
  | VObj _ => "[object Object]"
  | VArr elems =>
      (fix join (l : list value) : string :=
         match l with
         | [] => ""
         | x :: rest =>
             let sx := match x with
                       | VUndefined | VNull => ""
                       | _ => toString x
                       end in
             match rest with
             | [] => sx
             | _ :: _ => sx +:+ "," +:+ join rest
             end
         end) elems
  end.


(** ** The Location regular expression *)

Module Regex.

(** The fragment of the regular-expression syntax used by the modules. *)
Inductive re : Type :=
| Any                 (* [.]  any character but a line terminator *)
| Chr (c : ascii)     (* a literal character *)
| Eos                 (* [$]  end of input (no multiline flag) *)
| Star (r : re)       (* [r*] greedy *)
| Seq (r1 r2 : re)
| Grp (r : re).       (* [(r)] the capture group, number 1 *)

(** Line terminators of header strings: line feed and carriage return. *)
Definition is_line_terminator (c : ascii) : bool :=
  (Ascii.eqb c "010" || Ascii.eqb c "013")%char.

Section Matcher.
Context {R : Type}.

(** Captured text of group 1, when the group took part in the match. *)
Abbreviation capture := (option (list ascii)).

(** The greedy star over a one-step matcher [step]: one more iteration
    first (it has to consume input), the continuation [k] as the
    fallback.  [fuel] bounds the iterations; the length of the input is
    always enough. *)
Fixpoint star_loop
    (step : list ascii → capture → (list ascii → capture → option R) → option R)
    (k : list ascii → capture → option R)
    (fuel : nat) (s : list ascii) (c : capture) : option R :=
  match fuel with
  | O => k s c
  | S fuel' =>
      match step s c (λ s' c',
              if (length s' <? length s)%nat then star_loop step k fuel' s' c'
              else None) with
      | Some x => Some x
      | None => k s c
      end
  end.

(** Backtracking matcher in continuation-passing style: [m r s c k]
    matches [r] at the front of [s] and passes what is left, with the
    capture, to [k]; a failing continuation makes the matcher try its
    next alternative. *)
Fixpoint m (r : re) : list ascii → capture → (list ascii → capture → option R) → option R :=
  match r with
  | Any => λ s c k,
      match s with
      | ch :: s' => if is_line_terminator ch then None else k s' c
      | [] => None
      end
  | Chr x => λ s c k,
      match s with
      | ch :: s' => if Ascii.eqb ch x then k s' c else None
      | [] => None
      end
  | Eos => λ s c k,
      match s with
      | [] => k [] c
      | _ :: _ => None
      end
  | Seq r1 r2 => λ s c k, m r1 s c (λ s' c', m r2 s' c' k)
  | Grp r1 => λ s c k,
      m r1 s c (λ s' _, k s' (Some (take (length s - length s') s)))
  | Star r1 => λ s c k, star_loop (m r1) k (length s) s c
  end.
End Matcher.

(** First match, scanning start positions from the left: the text before
    the match, the capture and the text after the match. *)
Fixpoint search (r : re) (before s : list ascii)
  : option (list ascii * option (list ascii) * list ascii) :=
  match m r s None (λ rest c, Some (c, rest)) with
  | Some (c, rest) => Some (rev before, c, rest)
  | None =>
      match s with
      | [] => None
      | ch :: s' => search r (ch :: before) s'
      end
  end.

(** [s.replace(r, '$1')] for a regular expression without the global flag:
    the first match is replaced by the text of group 1; without a match
    the string is returned unchanged. *)
Definition replace_by_group (r : re) (s : string) : string :=
  match search r [] (list_ascii_of_string s) with
  | Some (pre, c, rest) => string_of_list_ascii (pre ++ default [] c ++ rest)
  | None => s
  end.

(** The pattern of the two [create] operations: any run of characters, a
    slash, a captured run of characters, end of input. *)
Definition location_re : re :=
  Seq (Star Any) (Seq (Chr "/") (Seq (Grp (Star Any)) Eos)).

End Regex.

(** [resp.headers.location.replace(re, '$1')] with [re] the pattern above. *)
Definition location_uid (location : string) : string :=
  Regex.replace_by_group Regex.location_re location.

(** ** Requests, callback arguments and settlements *)

(** The request descriptor handed to the transport.  [None] in [json],
    [method], [body] and [qs] stands for a property the object literal does
    not have; an absent [method] is the transport's default, GET. *)
Record request : Type := Request {
  url : string;
  auth_bearer : string;
  json : option bool;
  method : option string;
  body : option value;
  qs : option value
}.

Record response : Type := Response {
  statusCode : Z;
  headers : gmap string string
}.

(** The error object of a failed transport call. *)
Inductive transport_error : Type :=
| NetError (code : string).

(** The three arguments [(err, resp, body)] of the transport's callback;
    [err] is [None] for JavaScript's [null]. *)
Record reply : Type := Reply {
  err : option transport_error;
  resp : option response;
  reply_body : value
}.

(** A [TypeError] raised by reading a property of [undefined]; the string
    names the property. *)
Inductive exn : Type :=
| TypeError (property : string).

(** What a promise is rejected with. *)
Inductive rejection : Type :=
| RejErr (e : transport_error)    (* [reject(err)] *)
| RejBody (v : value)             (* [reject(body)] *)
| RejThrown (x : exn).            (* an exception thrown by the executor *)

(** How a call ends.  An exception thrown inside the transport's callback is
    outside every promise executor: the promise is never settled and the
    exception surfaces as [Uncaught]. *)
Inductive outcome : Type :=
| Resolved (v : value)
| Rejected (r : rejection)
| Uncaught (x : exn).

(** ** The world: private state and the wire *)

(** Modelled from the spec: [private-map], the per-client private-state
    store that holds the bearer access token (the module itself is not part
    of the sources).  This is what it files under one client. *)
Record private_data : Type := Private {
  accessToken : string
}.

(** [privates] is the store, keyed by the identity of the client object;
    [sent] records, oldest first, every descriptor handed to the
    transport. *)
Record world : Type := World {
  privates : gmap nat private_data;
  sent : list request
}.

(** The HTTP transport and the remote server behind it: given the requests
    issued so far and a new one, the arguments its callback is called with. *)
Definition transport : Type := list request → request → reply.

Definition M (A : Type) : Type := transport → world → A * world.

#[export] Instance M_ret : MRet M := λ A a _ w, (a, w).
#[export] Instance M_bind : MBind M :=
  λ A B f x net w, let '(a, w') := x net w in f a net w'.

(** [request(req, callback)]: the descriptor goes on the wire and the
    callback's arguments come back. *)
Definition send (req : request) : M reply :=
  λ net w, (net (sent w) req, World (privates w) (sent w ++ [req])).

(** The client object shared by the modules.  [client_id] is its identity
    (the key of its private state); the two [find] properties are the ones
    [create] reads back through. *)
Record client : Type := Client {
  client_id : nat;
  baseUrl : string;
  realms_userStorage_find : value → value → M outcome;
  realms_identityProvider_find : value → value → M outcome
}.

(** [privates.get(client)] *)
Definition privates_get (c : client) : M (option private_data) :=
  λ _ w, (privates w !! client_id c, w).

(** The skeleton every operation shares:
    [new Promise((resolve, reject) => { const req = {...}; request(req, cb) })].
    Building the descriptor reads [privates.get(client).accessToken]; when
    the client has no private state that read throws inside the executor and
    the promise is rejected with the exception, nothing being sent. *)
Definition promise_request (c : client) (mk : string → request)
    (callback : reply → M outcome) : M outcome :=
  p ← privates_get c;
  match p with
  | None => mret (Rejected (RejThrown (TypeError "accessToken")))
  | Some p => r ← send (mk (accessToken p)); callback r
  end.

(** The callback shared by all operations but [create]:
    [if (err) return reject(err);
     if (resp.statusCode !== expected) return reject(body);
     return resolve(body);] *)
Definition settle (expected : Z) (r : reply) : outcome :=
  match err r with
  | Some e => Rejected (RejErr e)
  | None =>
      match resp r with
      | None => Uncaught (TypeError "statusCode")
      | Some rs =>
          if negb (statusCode rs =? expected) then Rejected (RejBody (reply_body r))
          else Resolved (reply_body r)
      end
  end.

(** [`${client.baseUrl}/admin/realms/${realm}`] *)
Definition realm_url (c : client) (realm : value) : string :=
  baseUrl c +:+ "/admin/realms/" +:+ toString realm.

(** ** user-storage *)

Module UserStorage.

Definition find (client : client) (realm options : value) : M outcome :=
  let options := js_or options empty_object in
  promise_request client
    (λ token,
       if truthy (get options "id") then
         {| url := realm_url client realm +:+ "/components/" +:+ toString (get options "id");
            auth_bearer := token; json := Some true;
            method := None; body := None; qs := None |}
       else
         {| url := realm_url client realm +:+ "/components?parent=" +:+ toString realm
                   +:+ "&type=org.keycloak.storage.UserStorageProvider";
            auth_bearer := token; json := Some true;
            method := None; body := None; qs := Some options |})
    (λ r, mret (settle 200 r)).

Definition create (client : client) (realmName userStorage : value) : M outcome :=
  promise_request client
    (λ token,
       {| url := realm_url client realmName +:+ "/components";
          auth_bearer := token; body := Some userStorage;
          method := Some "POST"; json := Some true; qs := None |})
    (λ r,
       match err r with
       | Some e => mret (Rejected (RejErr e))
       | None =>
           match resp r with
           | None => mret (Uncaught (TypeError "statusCode"))
           | Some rs =>
               if negb (statusCode rs =? 201) then mret (Rejected (RejBody (reply_body r)))
               else
                 match headers rs !! "location" with
                 | None => mret (Uncaught (TypeError "replace"))
                 | Some location =>
                     let uid := location_uid location in
                     (* resolving with a promise adopts its settlement *)
                     realms_userStorage_find client realmName (VObj [("id", VStr uid)])
                 end
           end
       end).

Definition update (client : client) (realmName userStorage : value) : M outcome :=
  let userStorage := js_or userStorage empty_object in
  promise_request client
    (λ token,
       {| url := realm_url client realmName +:+ "/components/" +:+ toString (get userStorage "id");
          auth_bearer := token; json := Some true;
          method := Some "PUT"; body := Some userStorage; qs := None |})
    (λ r, mret (settle 204 r)).

Definition remove (client : client) (realmName id : value) : M outcome :=
  promise_request client
    (λ token,
       {| url := realm_url client realmName +:+ "/components/" +:+ toString id;
          auth_bearer := token; method := Some "DELETE";
          json := None; body := None; qs := None |})
    (λ r, mret (settle 204 r)).

Definition triggerChangedUsersSync (client : client) (realm id : value) : M outcome :=
  promise_request client
    (λ token,
       {| auth_bearer := token; json := Some true;
          url := realm_url client realm +:+ "/user-storage/" +:+ toString id
                 +:+ "/sync?action=triggerChangedUsersSync";
          method := None; body := None; qs := None |})
    (λ r, mret (settle 200 r)).

Definition triggerFullSync (client : client) (realm id : value) : M outcome :=
  promise_request client
    (λ token,
       {| auth_bearer := token; json := Some true;
          url := realm_url client realm +:+ "/user-storage/" +:+ toString id
                 +:+ "/sync?action=triggerFullSync";
          method := None; body := None; qs := None |})
    (λ r, mret (settle 200 r)).

Definition removeImportedUsers (client : client) (realm id : value) : M outcome :=
  promise_request client
    (λ token,
       {| auth_bearer := token; json := Some true;
          url := realm_url client realm +:+ "/user-storage/" +:+ toString id
                 +:+ "/remove-imported-users";
          method := None; body := None; qs := None |})
    (λ r, mret (settle 200 r)).

Definition unlinkImportedUsers (client : client) (realm id : value) : M outcome :=
  promise_request client
    (λ token,
       {| auth_bearer := token; json := Some true;
          url := realm_url client realm +:+ "/user-storage/" +:+ toString id
                 +:+ "/unlink-users";
          method := None; body := None; qs := None |})
    (λ r, mret (settle 200 r)).

End UserStorage.

(** ** identity-provider *)

Module IdentityProvider.

Definition find (client : client) (realm options : value) : M outcome :=
  let options := js_or options empty_object in
  promise_request client
    (λ token,
       if truthy (get options "alias") then
         {| url := realm_url client realm +:+ "/identity-provider/instances/"
                   +:+ toString (get options "alias");
            auth_bearer := token; json := Some true;
            method := None; body := None; qs := None |}
       else
         {| url := realm_url client realm +:+ "/identity-provider/instances";
            auth_bearer := token; json := Some true;
            method := None; body := None; qs := Some options |})
    (λ r, mret (settle 200 r)).

Definition create (client : client) (realmName identityProvider : value) : M outcome :=
  promise_request client
    (λ token,
       {| url := realm_url client realmName +:+ "/identity-provider/instances";
          auth_bearer := token; body := Some identityProvider;
          method := Some "POST"; json := Some true; qs := None |})
    (λ r,
       match err r with
       | Some e => mret (Rejected (RejErr e))
       | None =>
           match resp r with
           | None => mret (Uncaught (TypeError "statusCode"))
           | Some rs =>
               if negb (statusCode rs =? 201) then mret (Rejected (RejBody (reply_body r)))
               else
                 match headers rs !! "location" with
                 | None => mret (Uncaught (TypeError "replace"))
                 | Some location =>
                     let uid := location_uid location in
                     realms_identityProvider_find client realmName (VObj [("alias", VStr uid)])
                 end
           end
       end).

Definition update (client : client) (realmName identityProvider : value) : M outcome :=
  let identityProvider := js_or identityProvider empty_object in
  promise_request client
    (λ token,
       {| url := realm_url client realmName +:+ "/identity-provider/instances/"
                 +:+ toString (get identityProvider "alias");
          auth_bearer := token; json := Some true;
          method := Some "PUT"; body := Some identityProvider; qs := None |})
    (λ r, mret (settle 204 r)).

Definition remove (client : client) (realmName alias : value) : M outcome :=
  promise_request client
    (λ token,
       {| url := realm_url client realmName +:+ "/identity-provider/instances/"
                 +:+ toString alias;
          auth_bearer := token; method := Some "DELETE";
          json := None; body := None; qs := None |})
    (λ r, mret (settle 204 r)).

Definition exportConfiguration (client : client) (realm alias : value) : M outcome :=
  promise_request client
    (λ token,
       {| auth_bearer := token; json := Some true;
          url := realm_url client realm +:+ "/identity-provider/instances/"
                 +:+ toString alias +:+ "/export";
          method := None; body := None; qs := None |})
    (λ r, mret (settle 200 r)).

End IdentityProvider.

(** ** realm-authentication-flows *)

Module AuthenticationFlows.

Definition find (client : client) (realm flow options : value) : M outcome :=
  let options := js_or options empty_object in
  promise_request client
    (λ token,
       {| auth_bearer := token; json := Some true;
          url := realm_url client realm +:+ "/authentication/flows/" +:+ toString flow
                 +:+ "/executions";
          qs := Some options; method := None; body := None |})
    (λ r, mret (settle 200 r)).

Definition update (client : client) (realmName flow authenticationFlow : value) : M outcome :=
  promise_request client
    (λ token,
       {| url := realm_url client realmName +:+ "/authentication/flows/" +:+ toString flow
                 +:+ "/executions";
          auth_bearer := token; json := Some true;
          method := Some "PUT"; body := Some authenticationFlow; qs := None |})
    (λ r, mret (settle 204 r)).

End AuthenticationFlows.

(** ** The client as assembled, and calls on it *)

(** A client is [wired] when its two [find] properties are the modules' own
    [find], bound to that client. *)
Definition wired (c : client) : Prop :=
  realms_userStorage_find c = UserStorage.find c ∧
  realms_identityProvider_find c = IdentityProvider.find c.

(** Modelled from the spec: the client-construction layer (not part of the
    sources) attaches the modules as sibling properties of the shared client
    object, each operation constructor applied to that client. *)
Definition assemble (id : nat) (base : string) : client :=
  let bare := Client id base (λ _ _, mret (Resolved VUndefined))
                             (λ _ _, mret (Resolved VUndefined)) in
  Client id base (UserStorage.find bare) (IdentityProvider.find bare).

(** One call of one exported operation, with its arguments. *)
Inductive call : Type :=
| UserStorage_find (realm options : value)
| UserStorage_create (realmName userStorage : value)
| UserStorage_update (realmName userStorage : value)
| UserStorage_remove (realmName id : value)
| UserStorage_removeImportedUsers (realm id : value)
| UserStorage_triggerChangedUsersSync (realm id : value)
| UserStorage_triggerFullSync (realm id : value)
| UserStorage_unlinkImportedUsers (realm id : value)
| IdentityProvider_find (realm options : value)
| IdentityProvider_create (realmName identityProvider : value)
| IdentityProvider_update (realmName identityProvider : value)
| IdentityProvider_remove (realmName alias : value)
| IdentityProvider_exportConfiguration (realm alias : value)
| AuthenticationFlows_find (realm flow options : value)
| AuthenticationFlows_update (realmName flow authenticationFlow : value).

Definition invoke (c : client) (k : call) : M outcome :=
  match k with
  | UserStorage_find realm options => UserStorage.find c realm options
  | UserStorage_create realmName userStorage => UserStorage.create c realmName userStorage
  | UserStorage_update realmName userStorage => UserStorage.update c realmName userStorage
  | UserStorage_remove realmName id => UserStorage.remove c realmName id
  | UserStorage_removeImportedUsers realm id => UserStorage.removeImportedUsers c realm id
  | UserStorage_triggerChangedUsersSync realm id => UserStorage.triggerChangedUsersSync c realm id
  | UserStorage_triggerFullSync realm id => UserStorage.triggerFullSync c realm id
  | UserStorage_unlinkImportedUsers realm id => UserStorage.unlinkImportedUsers c realm id
  | IdentityProvider_find realm options => IdentityProvider.find c realm options
  | IdentityProvider_create realmName identityProvider =>
      IdentityProvider.create c realmName identityProvider
  | IdentityProvider_update realmName identityProvider =>
      IdentityProvider.update c realmName identityProvider
  | IdentityProvider_remove realmName alias => IdentityProvider.remove c realmName alias
  | IdentityProvider_exportConfiguration realm alias =>
      IdentityProvider.exportConfiguration c realm alias
  | AuthenticationFlows_find realm flow options => AuthenticationFlows.find c realm flow options
  | AuthenticationFlows_update realmName flow authenticationFlow =>
      AuthenticationFlows.update c realmName flow authenticationFlow
  end.

(** The status code each operation's callback compares against. *)
Definition expected_status (k : call) : Z :=
  match k with
  | UserStorage_create _ _ | IdentityProvider_create _ _ => 201
  | UserStorage_update _ _ | UserStorage_remove _ _
  | IdentityProvider_update _ _ | IdentityProvider_remove _ _
  | AuthenticationFlows_update _ _ _ => 204
  | _ => 200
  end.

Definition is_create (k : call) : bool :=
  match k with
  | UserStorage_create _ _ | IdentityProvider_create _ _ => true
  | _ => false
  end.

Definition is_update (k : call) : bool :=
  match k with
  | UserStorage_update _ _ | IdentityProvider_update _ _
  | AuthenticationFlows_update _ _ _ => true
  | _ => false
  end.

Definition is_remove (k : call) : bool :=
  match k with
  | UserStorage_remove _ _ | IdentityProvider_remove _ _ => true
  | _ => false
  end.

(** The token store being rewritten from outside between two calls. *)
Definition rotate_token (c : client) (token : string) (w : world) : world :=
  World (<[client_id c := Private token]> (privates w)) (sent w).

(** A client, a token store and a mock server to run the operations on. *)
Definition example_client : client := assemble 7 "https://host".

Definition example_world : world := World {[ 7%nat := Private "tok" ]} [].

Definition mock_server : transport := λ _ req,
  match method req with
  | Some "POST" =>
      Reply None
        (Some (Response 201
           {[ "location" := "https://host/admin/realms/master/components/abc-123" ]}))
        VUndefined
  | Some _ => Reply None (Some (Response 204 ∅)) VUndefined
  | None => Reply None (Some (Response 200 ∅)) (VObj [("id", VStr "abc-123")])
  end.

(** A server that answers everything with the same callback arguments. *)
Definition always (r : reply) : transport := λ _ _, r.

(** ** Reading the matcher and the callbacks

    Definitions used to state what the code above does. *)

(** A string that can be an HTTP header value: no line terminator in it. *)
Definition header_text (s : string) : bool :=
  forallb (λ ch, negb (Regex.is_line_terminator ch)) (list_ascii_of_string s).

Definition has_slash (s : string) : bool :=
  existsb (λ ch, Ascii.eqb ch "/") (list_ascii_of_string s).

Module RegexSpec.
Import Regex.

Section Greedy.
Context {R : Type}.

(** What the greedy [Star Any] amounts to: run to the end of the line,
    then offer the continuation ever longer remainders. *)
Fixpoint greedy_any k (s : list ascii) (c : option (list ascii)) : option R :=
  match s with
  | [] => k [] c
  | ch :: s' =>
      if is_line_terminator ch then k s c
      else match greedy_any k s' c with
           | Some x => Some x
           | None => k s c
           end
  end.
End Greedy.

(** The continuation of a whole-pattern match: report the capture and the
    text after the match. *)
Abbreviation found := (λ (rest : list ascii) (c : option (list ascii)), Some (c, rest)).

(** What follows the leading [Star Any] of the pattern. *)
Definition after_run (s : list ascii) (c : option (list ascii))
  : option (option (list ascii) * list ascii) :=
  m (Seq (Chr "/") (Seq (Grp (Star Any)) Eos)) s c found.

End RegexSpec.

(** The world after [req] has gone on the wire. *)
Definition after_send (w : world) (req : request) : world :=
  World (privates w) (sent w ++ [req]).

(** Which of the client's [find] properties a [create] call reads back
    through, and the options it passes. *)
Definition read_back (c : client) (k : call) (uid : string) : M outcome :=
  match k with
  | UserStorage_create realmName _ =>
      realms_userStorage_find c realmName (VObj [("id", VStr uid)])
  | IdentityProvider_create realmName _ =>
      realms_identityProvider_find c realmName (VObj [("alias", VStr uid)])
  | _ => mret (Resolved VUndefined)
  end.

(** The callback of the two [create] operations, over the world in which
    the POST has gone out; [back] is the client's [find] applied to the
    realm, waiting for the options. *)
Definition create_callback (back : string → M outcome) (w1 : world)
    (net : transport) (r : reply) : outcome * world :=
  match err r with
  | Some e => (Rejected (RejErr e), w1)
  | None =>
      match resp r with
      | None => (Uncaught (TypeError "statusCode"), w1)
      | Some rs =>
          if negb (statusCode rs =? 201) then (Rejected (RejBody (reply_body r)), w1)
          else match headers rs !! "location" with
               | None => (Uncaught (TypeError "replace"), w1)
               | Some location => back (location_uid location) net w1
               end
      end
  end.

(** A client whose read-back, were it ever called, would send a request of
    its own. *)
Definition chatty_client : client :=
  Client 7 "https://host"
    (λ _ _, r ← send (Request "https://host/probe" "" None None None None);
            mret (Resolved VNull))
    (λ _ _, r ← send (Request "https://host/probe" "" None None None None);
            mret (Resolved VNull)).

(** The realm a call is made on. *)
Definition realm_of (k : call) : value :=
  match k with
  | UserStorage_find realm _ | UserStorage_create realm _
  | UserStorage_update realm _ | UserStorage_remove realm _
  | UserStorage_removeImportedUsers realm _
  | UserStorage_triggerChangedUsersSync realm _
  | UserStorage_triggerFullSync realm _
  | UserStorage_unlinkImportedUsers realm _
  | IdentityProvider_find realm _ | IdentityProvider_create realm _
  | IdentityProvider_update realm _ | IdentityProvider_remove realm _
  | IdentityProvider_exportConfiguration realm _
  | AuthenticationFlows_find realm _ _
  | AuthenticationFlows_update realm _ _ => realm
  end.

(** The [method] property of the descriptor a call builds first. *)
Definition method_of (k : call) : option string :=
  if is_create k then Some "POST"
  else if is_update k then Some "PUT"
  else if is_remove k then Some "DELETE"
  else None.

Definition is_find (k : call) : bool :=
  match k with
  | UserStorage_find _ _ | IdentityProvider_find _ _
  | AuthenticationFlows_find _ _ _ => true
  | _ => false
  end.

(** A server that creates the resource and then cannot find it. *)
Definition forgetful_server : transport := λ _ req,
  match method req with
  | Some _ =>
      Reply None
        (Some (Response 201
           {[ "location" := "https://host/admin/realms/master/components/abc-123" ]}))
        VUndefined
  | None => Reply None (Some (Response 404 ∅)) (VObj [("error", VStr "not found")])
  end.

(** * Properties *)

Lemma assemble_wired id base : wired (assemble id base).
Proof. split; reflexivity. Qed.

(** ** Lemmas on the Location pattern *)

Module RegexFacts.
Import Regex RegexSpec.

Section Greedy.
Context {R : Type}.
Implicit Types (k : list ascii → option (list ascii) → option R).

Lemma m_Seq r1 r2 s c k :
  m (Seq r1 r2) s c k = m r1 s c (λ s' c', m r2 s' c' k).
Proof. reflexivity. Qed.

Lemma m_Star r s c k : m (Star r) s c k = star_loop (m r) k (length s) s c.
Proof. reflexivity. Qed.

Lemma m_Grp r s c k :
  m (Grp r) s c k = m r s c (λ s' _, k s' (Some (take (length s - length s') s))).
Proof. reflexivity. Qed.

Lemma m_Chr_cons x ch s c k :
  m (Chr x) (ch :: s) c k = if Ascii.eqb ch x then k s c else None.
Proof. reflexivity. Qed.

Lemma star_any_greedy k fuel s c :
  (length s ≤ fuel)%nat → star_loop (m Any) k fuel s c = greedy_any k s c.
Proof.
  revert s; induction fuel as [|fuel IH]; intros s Hlen.
  - destruct s; [reflexivity | simpl in Hlen; lia].
  - destruct s as [|ch s']; [reflexivity|].
    simpl in Hlen. cbn [star_loop m greedy_any].
    destruct (is_line_terminator ch); [reflexivity|].
    replace (length s' <? length (ch :: s'))%nat with true
      by (symmetry; apply Nat.ltb_lt; simpl; lia).
    rewrite IH by lia. reflexivity.
Qed.

Lemma greedy_any_none k s c :
  (∀ s', s' `suffix_of` s → k s' c = None) → greedy_any k s c = None.
Proof.
  induction s as [|ch s' IH]; intros Hk; simpl.
  - apply Hk. reflexivity.
  - rewrite IH by (intros t Ht; apply Hk; by apply suffix_cons_r).
    rewrite (Hk (ch :: s')) by reflexivity.
    by destruct (is_line_terminator ch).
Qed.

Lemma greedy_any_line k s c x :
  forallb (λ ch, negb (is_line_terminator ch)) s = true →
  k [] c = Some x → greedy_any k s c = Some x.
Proof.
  induction s as [|ch s' IH]; intros Hs Hk; simpl in *; [done|].
  apply andb_true_iff in Hs as [Hch Hs].
  destruct (is_line_terminator ch); [done|].
  by rewrite IH.
Qed.
End Greedy.

Lemma location_re_unfold s c :
  m location_re s c found = greedy_any after_run s c.
Proof.
  unfold location_re. rewrite m_Seq, m_Star, star_any_greedy by done. reflexivity.
Qed.

Lemma after_run_slash seg c :
  forallb (λ ch, negb (is_line_terminator ch)) seg = true →
  after_run ("/"%char :: seg) c = Some (Some seg, []).
Proof.
  intros Hseg. unfold after_run.
  rewrite m_Seq, m_Chr_cons, Ascii.eqb_refl, m_Seq, m_Grp, m_Star.
  rewrite star_any_greedy by done.
  apply greedy_any_line; [done|]. simpl.
  by rewrite Nat.sub_0_r, firstn_all.
Qed.

Lemma after_run_no_slash s c :
  existsb (λ ch, Ascii.eqb ch "/") s = false →
  ∀ s', s' `suffix_of` s → after_run s' c = None.
Proof.
  intros Hs s' [pre ->]. destruct s' as [|ch s']; [reflexivity|].
  rewrite existsb_app in Hs. apply orb_false_iff in Hs as [_ Hs].
  simpl in Hs. apply orb_false_iff in Hs as [Hch _].
  unfold after_run. by rewrite m_Seq, m_Chr_cons, Hch.
Qed.

Lemma search_unfold r before s :
  search r before s =
  match m r s None found with
  | Some (c, rest) => Some (rev before, c, rest)
  | None => match s with
            | [] => None
            | ch :: s' => search r (ch :: before) s'
            end
  end.
Proof. destruct s; reflexivity. Qed.

(** With no slash in the input the pattern matches at no position. *)
Lemma search_no_slash s before :
  existsb (λ ch, Ascii.eqb ch "/") s = false →
  search location_re before s = None.
Proof.
  revert before; induction s as [|ch s' IH]; intros before Hs.
  - reflexivity.
  - cbn [search]. rewrite location_re_unfold.
    rewrite greedy_any_none by (by apply after_run_no_slash).
    apply IH. simpl in Hs. by apply orb_false_iff in Hs as [_ ?].
Qed.

(** On a single line the first match starts at the left end, runs up to
    the last slash and captures what follows it. *)
Lemma location_re_last_slash pre seg c :
  forallb (λ ch, negb (is_line_terminator ch)) (pre ++ "/"%char :: seg) = true →
  existsb (λ ch, Ascii.eqb ch "/") seg = false →
  m location_re (pre ++ "/"%char :: seg) c found = Some (Some seg, []).
Proof.
  intros Hline Hseg. rewrite location_re_unfold.
  induction pre as [|ch pre IH]; simpl in *.
  - rewrite greedy_any_none by (by apply after_run_no_slash).
    by apply after_run_slash.
  - apply andb_true_iff in Hline as [Hch Hline].
    destruct (is_line_terminator ch); [done|].
    by rewrite IH.
Qed.

Lemma list_ascii_of_string_app (s t : string) :
  list_ascii_of_string (s +:+ t)
  = (list_ascii_of_string s ++ list_ascii_of_string t)%list.
Proof. induction s as [|ch s IH]; simpl; [done | by rewrite IH]. Qed.

End RegexFacts.

(** The identifier taken from a Location value is the text after its last
    slash. *)
Lemma location_uid_last_segment (pre seg : string) :
  header_text (pre +:+ "/" +:+ seg) = true →
  has_slash seg = false →
  location_uid (pre +:+ "/" +:+ seg) = seg.
Proof.
  unfold header_text, has_slash, location_uid, Regex.replace_by_group.
  rewrite !RegexFacts.list_ascii_of_string_app. simpl.
  intros Hline Hseg.
  rewrite RegexFacts.search_unfold.
  rewrite (RegexFacts.location_re_last_slash _ _ None Hline Hseg).
  cbn. by rewrite app_nil_r, string_of_list_ascii_of_string.
Qed.

(** A Location value without a slash is taken whole. *)
Lemma location_uid_no_slash (s : string) :
  has_slash s = false → location_uid s = s.
Proof.
  unfold has_slash, location_uid, Regex.replace_by_group. intros Hs.
  by rewrite RegexFacts.search_no_slash.
Qed.

(** ** Running one call *)

Lemma promise_request_run c mk callback net w p :
  privates w !! client_id c = Some p →
  promise_request c mk callback net w
  = callback (net (sent w) (mk (accessToken p))) net (after_send w (mk (accessToken p))).
Proof.
  intros Hp. unfold promise_request, privates_get, mbind, M_bind, send. by rewrite Hp.
Qed.

Lemma promise_request_no_private c mk callback net w :
  privates w !! client_id c = None →
  promise_request c mk callback net w
  = (Rejected (RejThrown (TypeError "accessToken")), w).
Proof.
  intros Hp. unfold promise_request, privates_get, mbind, M_bind. by rewrite Hp.
Qed.

(** Without private state for the client, no call gets as far as the
    transport. *)
Lemma call_without_private_state c k net w :
  privates w !! client_id c = None →
  invoke c k net w = (Rejected (RejThrown (TypeError "accessToken")), w).
Proof. intros Hp. destruct k; by apply promise_request_no_private. Qed.

(** Every operation but [create]: one request, whose reply settles the
    promise. *)
Lemma simple_call_run c k w p :
  is_create k = false →
  privates w !! client_id c = Some p →
  ∃ req,
    (∀ net, invoke c k net w
            = (settle (expected_status k) (net (sent w) req), after_send w req)) ∧
    auth_bearer req = accessToken p ∧
    json req = (if is_remove k then None else Some true).
Proof.
  intros Hk Hp.
  destruct k; try discriminate Hk; cbn [invoke];
    unfold UserStorage.find, UserStorage.update, UserStorage.remove,
      UserStorage.removeImportedUsers, UserStorage.triggerChangedUsersSync,
      UserStorage.triggerFullSync, UserStorage.unlinkImportedUsers,
      IdentityProvider.find, IdentityProvider.update, IdentityProvider.remove,
      IdentityProvider.exportConfiguration,
      AuthenticationFlows.find, AuthenticationFlows.update;
    (eexists; split;
     [intros net; rewrite (promise_request_run _ _ _ _ _ _ Hp); reflexivity|]);
    cbn [is_remove]; split; try reflexivity;
    match goal with |- context [if ?b then _ else _] => by destruct b end.
Qed.

Ltac callback_cases :=
  unfold create_callback;
  (destruct (err _); [reflexivity|]);
  (destruct (resp _) as [?rs|]; [|reflexivity]);
  (destruct (negb _); [reflexivity|]);
  destruct (headers _ !! "location"); reflexivity.

Lemma user_storage_create_run c realmName userStorage net w p :
  privates w !! client_id c = Some p →
  let post := Request (realm_url c realmName +:+ "/components") (accessToken p)
                (Some true) (Some "POST") (Some userStorage) None in
  UserStorage.create c realmName userStorage net w
  = create_callback (λ uid, realms_userStorage_find c realmName (VObj [("id", VStr uid)]))
      (after_send w post) net (net (sent w) post).
Proof.
  intros Hp post. unfold UserStorage.create.
  rewrite (promise_request_run _ _ _ _ _ _ Hp). fold post. callback_cases.
Qed.

Lemma identity_provider_create_run c realmName identityProvider net w p :
  privates w !! client_id c = Some p →
  let post := Request (realm_url c realmName +:+ "/identity-provider/instances")
                (accessToken p) (Some true) (Some "POST") (Some identityProvider) None in
  IdentityProvider.create c realmName identityProvider net w
  = create_callback
      (λ uid, realms_identityProvider_find c realmName (VObj [("alias", VStr uid)]))
      (after_send w post) net (net (sent w) post).
Proof.
  intros Hp post. unfold IdentityProvider.create.
  rewrite (promise_request_run _ _ _ _ _ _ Hp). fold post. callback_cases.
Qed.

(** [create] in either module: the POST, then the callback. *)
Lemma create_call_run c k w p :
  is_create k = true →
  privates w !! client_id c = Some p →
  ∃ post,
    (∀ net, invoke c k net w
            = create_callback (read_back c k) (after_send w post) net (net (sent w) post)) ∧
    auth_bearer post = accessToken p ∧
    json post = Some true ∧
    method post = Some "POST".
Proof.
  intros Hk Hp.
  destruct k; try discriminate Hk; cbn [invoke read_back]; eexists; (split;
    [ intros net;
      first [ apply (user_storage_create_run _ _ _ _ _ _ Hp)
            | apply (identity_provider_create_run _ _ _ _ _ _ Hp) ]
    | repeat split; reflexivity ]).
Qed.

Lemma expected_status_create k : is_create k = true → expected_status k = 201.
Proof. by destruct k. Qed.

Lemma expected_status_update_remove k :
  is_update k || is_remove k = true → expected_status k = 204 ∧ is_create k = false.
Proof. by destruct k. Qed.

Lemma settle_mismatch expected rs b :
  statusCode rs ≠ expected →
  settle expected (Reply None (Some rs) b) = Rejected (RejBody b).
Proof. intros Hne. unfold settle. cbn. by apply Z.eqb_neq in Hne as ->. Qed.

Lemma settle_match expected rs b :
  statusCode rs = expected →
  settle expected (Reply None (Some rs) b) = Resolved b.
Proof. intros <-. unfold settle. cbn. by rewrite Z.eqb_refl. Qed.

Lemma create_callback_mismatch back w1 net rs b :
  statusCode rs ≠ 201 →
  create_callback back w1 net (Reply None (Some rs) b) = (Rejected (RejBody b), w1).
Proof. intros Hne. unfold create_callback. cbn. by apply Z.eqb_neq in Hne as ->. Qed.

Lemma create_callback_created back w1 net rs b location :
  statusCode rs = 201 →
  headers rs !! "location" = Some location →
  create_callback back w1 net (Reply None (Some rs) b) = back (location_uid location) net w1.
Proof. intros Hs Hl. unfold create_callback. cbn. by rewrite Hs, Hl. Qed.

Lemma create_callback_no_location back w1 net rs b :
  statusCode rs = 201 →
  headers rs !! "location" = None →
  create_callback back w1 net (Reply None (Some rs) b)
  = (Uncaught (TypeError "replace"), w1).
Proof. intros Hs Hl. unfold create_callback. cbn. by rewrite Hs, Hl. Qed.

(** ** Error handling *)

(** C8: for every operation of the three modules, when the transport call
    fails, the promise is rejected with the transport's error object itself;
    whatever response and body the callback was handed along with the error
    play no part, and nothing else is sent. *)
Theorem transport_error_is_the_rejection c k w p :
  privates w !! client_id c = Some p →
  ∃ req, ∀ net e rs b,
    net (sent w) req = Reply (Some e) rs b →
    invoke c k net w = (Rejected (RejErr e), after_send w req).
Proof.
  intros Hp. destruct (is_create k) eqn:Hk.
  - destruct (create_call_run c k w p Hk Hp) as (post & Hrun & _).
    exists post. intros net e rs b Hr. by rewrite Hrun, Hr.
  - destruct (simple_call_run c k w p Hk Hp) as (req & Hrun & _).
    exists req. intros net e rs b Hr. by rewrite Hrun, Hr.
Qed.

Lemma transport_error_is_the_rejection_witness :
  privates example_world !! client_id example_client = Some (Private "tok") ∧
  (invoke example_client (AuthenticationFlows_find (VStr "master") (VStr "browser") VUndefined)
     (always (Reply (Some (NetError "ECONNREFUSED")) None (VStr "ignored")))
     example_world).1
  = Rejected (RejErr (NetError "ECONNREFUSED")).
Proof.
  split; [reflexivity|].
  destruct (transport_error_is_the_rejection example_client
              (AuthenticationFlows_find (VStr "master") (VStr "browser") VUndefined)
              example_world (Private "tok") eq_refl) as [req Hreq].
  by rewrite (Hreq _ (NetError "ECONNREFUSED") None (VStr "ignored") eq_refl).
Defined.

(** C2: for every operation of the three modules, when the call completes
    with a status code other than the one the operation expects, the promise
    is rejected with the response body as the transport delivered it, with
    nothing wrapped around it. *)
Theorem status_mismatch_rejects_with_body c k w p :
  privates w !! client_id c = Some p →
  ∃ req, ∀ net rs b,
    net (sent w) req = Reply None (Some rs) b →
    statusCode rs ≠ expected_status k →
    invoke c k net w = (Rejected (RejBody b), after_send w req).
Proof.
  intros Hp. destruct (is_create k) eqn:Hk.
  - destruct (create_call_run c k w p Hk Hp) as (post & Hrun & _).
    exists post. intros net rs b Hr Hne.
    rewrite (expected_status_create k Hk) in Hne.
    by rewrite Hrun, Hr, create_callback_mismatch.
  - destruct (simple_call_run c k w p Hk Hp) as (req & Hrun & _).
    exists req. intros net rs b Hr Hne.
    by rewrite Hrun, Hr, settle_mismatch.
Qed.

Lemma status_mismatch_rejects_with_body_witness :
  privates example_world !! client_id example_client = Some (Private "tok") ∧
  (invoke example_client
     (UserStorage_update (VStr "master") (VObj [("id", VStr "abc-123")]))
     (always (Reply None (Some (Response 400 ∅)) (VObj [("error", VStr "invalid")])))
     example_world).1
  = Rejected (RejBody (VObj [("error", VStr "invalid")])).
Proof.
  split; [reflexivity|].
  destruct (status_mismatch_rejects_with_body example_client
              (UserStorage_update (VStr "master") (VObj [("id", VStr "abc-123")]))
              example_world (Private "tok") eq_refl) as [req Hreq].
  by rewrite (Hreq _ (Response 400 ∅) (VObj [("error", VStr "invalid")]) eq_refl).
Defined.

(** C5: every update (three modules) and every remove (user-storage and
    identity-provider) resolves with the response body, empty or not,
    exactly when the status is 204, and is rejected for every other status,
    200 included. *)
Theorem update_remove_resolve_on_204_only c k w p :
  is_update k || is_remove k = true →
  privates w !! client_id c = Some p →
  ∃ req, ∀ net rs b,
    net (sent w) req = Reply None (Some rs) b →
    ((invoke c k net w).1 = Resolved b ↔ statusCode rs = 204) ∧
    (statusCode rs ≠ 204 → (invoke c k net w).1 = Rejected (RejBody b)) ∧
    (invoke c k net w).2 = after_send w req.
Proof.
  intros Hk Hp. destruct (expected_status_update_remove k Hk) as [Hexp Hcreate].
  destruct (simple_call_run c k w p Hcreate Hp) as (req & Hrun & _).
  exists req. intros net rs b Hr. rewrite Hrun, Hr, Hexp. cbn [fst snd].
  destruct (decide (statusCode rs = 204)) as [Heq|Hne].
  - rewrite settle_match by done. by repeat split.
  - rewrite settle_mismatch by done. by repeat split.
Qed.

Lemma update_remove_resolve_on_204_only_witness :
  is_update (IdentityProvider_update (VStr "master") (VObj [("alias", VStr "github")]))
  || is_remove (IdentityProvider_update (VStr "master") (VObj [("alias", VStr "github")]))
  = true ∧
  privates example_world !! client_id example_client = Some (Private "tok") ∧
  (invoke example_client
     (IdentityProvider_update (VStr "master") (VObj [("alias", VStr "github")]))
     (always (Reply None (Some (Response 200 ∅)) (VStr "")))
     example_world).1
  = Rejected (RejBody (VStr "")).
Proof.
  split; [reflexivity|]. split; [reflexivity|].
  destruct (update_remove_resolve_on_204_only example_client
              (IdentityProvider_update (VStr "master") (VObj [("alias", VStr "github")]))
              example_world (Private "tok") eq_refl eq_refl) as [req Hreq].
  by apply (Hreq _ (Response 200 ∅) (VStr "") eq_refl).
Defined.

(** ** create *)

(** C7: a create call sends its POST and nothing more unless that POST
    completes with status 201: on a transport failure and on every other
    status the promise is rejected with the POST alone on the wire, whatever
    [find] the client carries being left uncalled.  The read-back starts
    only from the world in which the POST has gone out and been answered
    with 201. *)
Theorem create_follow_up_only_after_201 c k w p :
  is_create k = true →
  privates w !! client_id c = Some p →
  ∃ post,
    method post = Some "POST" ∧
    (∀ net e rs b,
       net (sent w) post = Reply (Some e) rs b →
       invoke c k net w = (Rejected (RejErr e), after_send w post)) ∧
    (∀ net rs b,
       net (sent w) post = Reply None (Some rs) b →
       statusCode rs ≠ 201 →
       invoke c k net w = (Rejected (RejBody b), after_send w post)) ∧
    (∀ net rs b location,
       net (sent w) post = Reply None (Some rs) b →
       statusCode rs = 201 →
       headers rs !! "location" = Some location →
       invoke c k net w
       = read_back c k (location_uid location) net (after_send w post)).
Proof.
  intros Hk Hp.
  destruct (create_call_run c k w p Hk Hp) as (post & Hrun & _ & _ & Hpost).
  exists post. split; [done|]. split; [|split].
  - intros net e rs b Hr. by rewrite Hrun, Hr.
  - intros net rs b Hr Hne. by rewrite Hrun, Hr, create_callback_mismatch.
  - intros net rs b location Hr Hs Hl.
    by rewrite Hrun, Hr, (create_callback_created _ _ _ _ _ location).
Qed.

Lemma create_follow_up_only_after_201_witness :
  is_create (UserStorage_create (VStr "master") (VObj [("name", VStr "ldap")])) = true ∧
  privates example_world !! client_id chatty_client = Some (Private "tok") ∧
  length (sent (invoke chatty_client
                  (UserStorage_create (VStr "master") (VObj [("name", VStr "ldap")]))
                  (always (Reply None (Some (Response 409 ∅)) (VStr "conflict")))
                  example_world).2) = 1%nat.
Proof.
  split; [reflexivity|]. split; [reflexivity|].
  destruct (create_follow_up_only_after_201 chatty_client
              (UserStorage_create (VStr "master") (VObj [("name", VStr "ldap")]))
              example_world (Private "tok") eq_refl eq_refl) as (post & _ & _ & Hreq & _).
  by rewrite (Hreq _ (Response 409 ∅) (VStr "conflict") eq_refl).
Defined.

(** C9: when the POST of a create call comes back with status 201 and no
    Location header, reading the identifier off the absent header throws a
    TypeError inside the transport's callback: the promise is rejected
    neither with a transport error nor with a body.  When the header is
    there and holds no slash, the whole header is the identifier the
    read-back is called with. *)
Theorem create_without_location_throws c k w p :
  is_create k = true →
  privates w !! client_id c = Some p →
  ∃ post,
    (∀ net rs b,
       net (sent w) post = Reply None (Some rs) b →
       statusCode rs = 201 →
       headers rs !! "location" = None →
       invoke c k net w = (Uncaught (TypeError "replace"), after_send w post)) ∧
    (∀ net rs b location,
       net (sent w) post = Reply None (Some rs) b →
       statusCode rs = 201 →
       headers rs !! "location" = Some location →
       has_slash location = false →
       invoke c k net w = read_back c k location net (after_send w post)).
Proof.
  intros Hk Hp.
  destruct (create_call_run c k w p Hk Hp) as (post & Hrun & _).
  exists post. split.
  - intros net rs b Hr Hs Hl. by rewrite Hrun, Hr, create_callback_no_location.
  - intros net rs b location Hr Hs Hl Hslash.
    rewrite Hrun, Hr, (create_callback_created _ _ _ _ _ location) by done.
    by rewrite location_uid_no_slash.
Qed.

Lemma create_without_location_throws_witness :
  is_create (IdentityProvider_create (VStr "master") (VObj [("alias", VStr "github")])) = true ∧
  privates example_world !! client_id example_client = Some (Private "tok") ∧
  (invoke example_client
     (IdentityProvider_create (VStr "master") (VObj [("alias", VStr "github")]))
     (always (Reply None (Some (Response 201 ∅)) VUndefined))
     example_world).1
  = Uncaught (TypeError "replace").
Proof.
  split; [reflexivity|]. split; [reflexivity|].
  destruct (create_without_location_throws example_client
              (IdentityProvider_create (VStr "master") (VObj [("alias", VStr "github")]))
              example_world (Private "tok") eq_refl eq_refl) as (post & Hreq & _).
  by rewrite (Hreq _ (Response 201 ∅) VUndefined) by reflexivity.
Defined.

(** C1: when the POST of a create call comes back with status 201, the
    identifier is the final path segment of the Location header (a header
    value, hence free of line terminators), and the call goes on as the
    module's [find] by that identifier ([id] for user-storage, [alias] for
    identity-provider) in the same realm: the promise settles as that [find]
    does, the POST's own body being dropped. *)
Theorem create_reads_back_by_location c realmName entity net w p rs b pre uid :
  wired c →
  privates w !! client_id c = Some p →
  statusCode rs = 201 →
  headers rs !! "location" = Some (pre +:+ "/" +:+ uid) →
  header_text (pre +:+ "/" +:+ uid) = true →
  has_slash uid = false →
  (∀ post,
     post = Request (realm_url c realmName +:+ "/components") (accessToken p)
              (Some true) (Some "POST") (Some entity) None →
     net (sent w) post = Reply None (Some rs) b →
     UserStorage.create c realmName entity net w
     = UserStorage.find c realmName (VObj [("id", VStr uid)]) net (after_send w post)) ∧
  (∀ post,
     post = Request (realm_url c realmName +:+ "/identity-provider/instances")
              (accessToken p) (Some true) (Some "POST") (Some entity) None →
     net (sent w) post = Reply None (Some rs) b →
     IdentityProvider.create c realmName entity net w
     = IdentityProvider.find c realmName (VObj [("alias", VStr uid)]) net (after_send w post)).
Proof.
  intros [Hus Hip] Hp Hs Hl Hline Hseg. split; intros post -> Hr.
  - rewrite (user_storage_create_run _ _ _ _ _ _ Hp). cbv zeta.
    rewrite Hr, (create_callback_created _ _ _ _ _ _ Hs Hl).
    by rewrite location_uid_last_segment, Hus.
  - rewrite (identity_provider_create_run _ _ _ _ _ _ Hp). cbv zeta.
    rewrite Hr, (create_callback_created _ _ _ _ _ _ Hs Hl).
    by rewrite location_uid_last_segment, Hip.
Qed.

Lemma create_reads_back_by_location_witness :
  wired example_client ∧
  privates example_world !! client_id example_client = Some (Private "tok") ∧
  header_text ("https://host/admin/realms/master/components" +:+ "/" +:+ "abc-123") = true ∧
  has_slash "abc-123" = false ∧
  UserStorage.create example_client (VStr "master") (VObj [("name", VStr "ldap")])
    mock_server example_world
  = (Resolved (VObj [("id", VStr "abc-123")]),
     World (privates example_world)
       [ Request "https://host/admin/realms/master/components" "tok"
           (Some true) (Some "POST") (Some (VObj [("name", VStr "ldap")])) None;
         Request "https://host/admin/realms/master/components/abc-123" "tok"
           (Some true) None None None ]).
Proof.
  split; [split; reflexivity|]. split; [reflexivity|].
  split; [reflexivity|]. split; [reflexivity|].
  pose proof (create_reads_back_by_location example_client (VStr "master")
                (VObj [("name", VStr "ldap")]) mock_server example_world (Private "tok")
                (Response 201
                   {[ "location" := "https://host/admin/realms/master/components/abc-123" ]})
                VUndefined "https://host/admin/realms/master/components" "abc-123")
    as Hcreate.
  specialize (Hcreate ltac:(split; reflexivity)).
  do 5 specialize (Hcreate ltac:(reflexivity)).
  destruct Hcreate as [Hus _].
  by rewrite (Hus _ eq_refl eq_refl).
Defined.

(** ** find *)

(** C3, as stated, fails: an options object that supplies [id] as the empty
    string is sent to the collection URL with the options as query
    parameters, not to the single-resource URL. *)
Lemma find_with_empty_id_targets_collection :
  lookup_prop "id" [("id", VStr "")] = Some (VStr "") ∧
  sent (UserStorage.find example_client (VStr "master") (VObj [("id", VStr "")])
          mock_server example_world).2
  = [ Request ("https://host/admin/realms/master/components"
               +:+ "?parent=master&type=org.keycloak.storage.UserStorageProvider")
        "tok" (Some true) None None (Some (VObj [("id", VStr "")])) ] ∧
  ¬ (∃ req,
       sent (UserStorage.find example_client (VStr "master") (VObj [("id", VStr "")])
               mock_server example_world).2 = [req] ∧
       url req = "https://host/admin/realms/master/components/" ∧
       qs req = None).
Proof.
  split; [reflexivity|]. split; [reflexivity|].
  intros (req & Hsent & _ & Hqs). cbv in Hsent.
  injection Hsent as <-. discriminate Hqs.
Qed.

(** C3, amended: with [options] replaced by the empty object when it is
    omitted or falsy, a find call whose [options.id] (user-storage) or
    [options.alias] (identity-provider) is truthy targets the
    single-resource URL and attaches no query-string object; otherwise (the
    property absent or falsy) it targets the collection URL and attaches the
    options object as it is. *)
Theorem find_targets_by_truthiness c realm options net w p :
  privates w !! client_id c = Some p →
  let opts := js_or options empty_object in
  (truthy (get opts "id") = true →
   (UserStorage.find c realm options net w).2
   = after_send w
       (Request (realm_url c realm +:+ "/components/" +:+ toString (get options "id"))
          (accessToken p) (Some true) None None None)) ∧
  (truthy (get opts "id") = false →
   (UserStorage.find c realm options net w).2
   = after_send w
       (Request (realm_url c realm +:+ "/components?parent=" +:+ toString realm
                 +:+ "&type=org.keycloak.storage.UserStorageProvider")
          (accessToken p) (Some true) None None (Some opts))) ∧
  (truthy (get opts "alias") = true →
   (IdentityProvider.find c realm options net w).2
   = after_send w
       (Request (realm_url c realm +:+ "/identity-provider/instances/"
                 +:+ toString (get options "alias"))
          (accessToken p) (Some true) None None None)) ∧
  (truthy (get opts "alias") = false →
   (IdentityProvider.find c realm options net w).2
   = after_send w
       (Request (realm_url c realm +:+ "/identity-provider/instances")
          (accessToken p) (Some true) None None (Some opts))).
Proof.
  intros Hp opts.
  assert (Hopts : ∀ key, truthy (get opts key) = true → opts = options).
  { intros key. unfold opts, js_or. by destruct (truthy options). }
  unfold UserStorage.find, IdentityProvider.find.
  rewrite !(promise_request_run _ _ _ _ _ _ Hp). fold opts.
  repeat split; intros Hid; rewrite Hid; try reflexivity;
    by rewrite <- (Hopts _ Hid).
Qed.

Lemma find_targets_by_truthiness_witness :
  privates example_world !! client_id example_client = Some (Private "tok") ∧
  truthy (get (js_or (VObj [("alias", VStr "github")]) empty_object) "alias") = true ∧
  sent (IdentityProvider.find example_client (VStr "master")
          (VObj [("alias", VStr "github")]) mock_server example_world).2
  = [ Request "https://host/admin/realms/master/identity-provider/instances/github"
        "tok" (Some true) None None None ].
Proof.
  split; [reflexivity|]. split; [reflexivity|].
  destruct (find_targets_by_truthiness example_client (VStr "master")
              (VObj [("alias", VStr "github")]) mock_server example_world
              (Private "tok") eq_refl) as (_ & _ & Halias & _).
  by rewrite (Halias eq_refl).
Defined.

(** ** update *)




(** ** Every request of every call *)

(** What a call on an assembled client puts on the wire: at least one
    request, each with the stored token as bearer, each with the json flag
    unless the call is a remove. *)
Lemma wired_call_requests c k net w p :
  wired c →
  privates w !! client_id c = Some p →
  ∃ reqs,
    reqs ≠ [] ∧
    (invoke c k net w).2 = World (privates w) (sent w ++ reqs) ∧
    Forall (λ r, auth_bearer r = accessToken p ∧
                 json r = (if is_remove k then None else Some true)) reqs.
Proof.
  intros [Hus Hip] Hp. destruct (is_create k) eqn:Hk.
  - destruct (create_call_run c k w p Hk Hp) as (post & Hrun & Hb & Hj & _).
    assert (is_remove k = false) as -> by (by destruct k).
    assert (Hone : ∃ reqs, reqs ≠ [] ∧
              after_send w post = World (privates w) (sent w ++ reqs) ∧
              Forall (λ r, auth_bearer r = accessToken p ∧ json r = Some true) reqs).
    { exists [post]. by repeat constructor. }
    rewrite Hrun. unfold create_callback.
    destruct (err _); [done|].
    destruct (resp _) as [rs|]; [|done].
    destruct (negb _); [done|].
    destruct (headers rs !! "location") as [location|]; [|done].
    assert (∃ k', is_create k' = false ∧ is_remove k' = false ∧
                  read_back c k (location_uid location) = invoke c k')
      as (k' & Hk' & Hrm & ->).
    { destruct k; try discriminate Hk; cbn [read_back].
      - exists (UserStorage_find realmName (VObj [("id", VStr (location_uid location))])).
        by rewrite Hus.
      - exists (IdentityProvider_find realmName
                  (VObj [("alias", VStr (location_uid location))])).
        by rewrite Hip. }
    destruct (simple_call_run c k' (after_send w post) p Hk' Hp)
      as (req & Hfind & Hb' & Hj').
    rewrite Hrm in Hj'. exists [post; req]. rewrite Hfind.
    split; [done|]. split; [|by repeat constructor].
    unfold after_send. cbn. by rewrite <- app_assoc.
  - destruct (simple_call_run c k w p Hk Hp) as (req & Hrun & Hb & Hj).
    exists [req]. rewrite Hrun. by repeat constructor.
Qed.

(** C4, as stated, fails: the request of a remove call has no json flag. *)
Lemma remove_request_has_no_json_flag :
  sent (invoke example_client (UserStorage_remove (VStr "master") (VStr "abc-123"))
          mock_server example_world).2
  = [ Request "https://host/admin/realms/master/components/abc-123" "tok"
        None (Some "DELETE") None None ] ∧
  ¬ Forall (λ r, json r = Some true)
      (sent (invoke example_client (UserStorage_remove (VStr "master") (VStr "abc-123"))
               mock_server example_world).2).
Proof.
  split; [reflexivity|].
  intros Hall. apply Forall_cons in Hall as [Hjson _]. discriminate Hjson.
Qed.

(** C4, amended: every operation of the three modules other than the two
    removes builds its requests with the json flag set (for create, the POST
    and the read-back alike); the two remove operations build theirs without
    the flag. *)
Theorem json_flag_on_all_but_remove c k net w p :
  wired c →
  privates w !! client_id c = Some p →
  ∃ reqs,
    reqs ≠ [] ∧
    sent (invoke c k net w).2 = (sent w ++ reqs)%list ∧
    Forall (λ r, json r = (if is_remove k then None else Some true)) reqs.
Proof.
  intros Hw Hp.
  destruct (wired_call_requests c k net w p Hw Hp) as (reqs & Hne & Hsent & Hall).
  exists reqs. rewrite Hsent. split; [done|]. split; [done|].
  eapply Forall_impl; [exact Hall|]. by intros r [_ ?].
Qed.

Lemma json_flag_on_all_but_remove_witness :
  wired example_client ∧
  privates example_world !! client_id example_client = Some (Private "tok") ∧
  ∃ reqs,
    reqs ≠ [] ∧
    sent (invoke example_client
            (UserStorage_create (VStr "master") (VObj [("name", VStr "ldap")]))
            mock_server example_world).2 = (sent example_world ++ reqs)%list ∧
    Forall (λ r, json r = Some true) reqs.
Proof.
  split; [split; reflexivity|]. split; [reflexivity|].
  apply (json_flag_on_all_but_remove example_client
           (UserStorage_create (VStr "master") (VObj [("name", VStr "ldap")]))
           mock_server example_world (Private "tok"));
    [split; reflexivity | reflexivity].
Defined.

(** C6: every request of every call carries as bearer the access token that
    the private state holds when the call is made; a token written into the
    private state after one call is the bearer of the next call's
    requests. *)
Theorem bearer_is_token_at_call_time c k net w p :
  wired c →
  privates w !! client_id c = Some p →
  (∃ reqs,
     reqs ≠ [] ∧
     sent (invoke c k net w).2 = (sent w ++ reqs)%list ∧
     Forall (λ r, auth_bearer r = accessToken p) reqs) ∧
  (∀ token' k' net',
     ∃ reqs',
       reqs' ≠ [] ∧
       sent (invoke c k' net' (rotate_token c token' (invoke c k net w).2)).2
       = (sent (invoke c k net w).2 ++ reqs')%list ∧
       Forall (λ r, auth_bearer r = token') reqs').
Proof.
  intros Hw Hp. split.
  - destruct (wired_call_requests c k net w p Hw Hp) as (reqs & Hne & Hsent & Hall).
    exists reqs. rewrite Hsent. split; [done|]. split; [done|].
    eapply Forall_impl; [exact Hall|]. by intros r [? _].
  - intros token' k' net'.
    set (w1 := rotate_token c token' (invoke c k net w).2).
    assert (Hp1 : privates w1 !! client_id c = Some (Private token'))
      by apply lookup_insert_eq.
    destruct (wired_call_requests c k' net' w1 _ Hw Hp1) as (reqs & Hne & Hsent & Hall).
    exists reqs. rewrite Hsent. split; [done|]. split; [done|].
    eapply Forall_impl; [exact Hall|]. by intros r [? _].
Qed.

Lemma bearer_is_token_at_call_time_witness :
  wired example_client ∧
  privates example_world !! client_id example_client = Some (Private "tok") ∧
  ∃ reqs',
    reqs' ≠ [] ∧
    sent (invoke example_client (UserStorage_triggerFullSync (VStr "master") (VStr "abc-123"))
            mock_server
            (rotate_token example_client "tok2"
               (invoke example_client (UserStorage_find (VStr "master") VUndefined)
                  mock_server example_world).2)).2
    = (sent (invoke example_client (UserStorage_find (VStr "master") VUndefined)
               mock_server example_world).2 ++ reqs')%list ∧
    Forall (λ r, auth_bearer r = "tok2") reqs'.
Proof.
  split; [split; reflexivity|]. split; [reflexivity|].
  apply (bearer_is_token_at_call_time example_client
           (UserStorage_find (VStr "master") VUndefined)
           mock_server example_world (Private "tok"));
    [split; reflexivity | reflexivity].
Defined.

(** * Further properties of the three modules *)

(** ** One request per call, fixed by the call alone *)

Ltac unfold_operations :=
  unfold UserStorage.find, UserStorage.update, UserStorage.remove,
    UserStorage.removeImportedUsers, UserStorage.triggerChangedUsersSync,
    UserStorage.triggerFullSync, UserStorage.unlinkImportedUsers,
    IdentityProvider.find, IdentityProvider.update, IdentityProvider.remove,
    IdentityProvider.exportConfiguration,
    AuthenticationFlows.find, AuthenticationFlows.update.

(** The descriptor of an operation other than [create], read off the
    client, the arguments and the token, with what it does and does not
    carry. *)
Lemma simple_call_shape c k p :
  is_create k = false →
  ∃ req,
    (∀ w net, privates w !! client_id c = Some p →
       invoke c k net w
       = (settle (expected_status k) (net (sent w) req), after_send w req)) ∧
    method req = method_of k ∧
    (is_update k = false → body req = None) ∧
    (is_update k = true → is_Some (body req)) ∧
    (is_find k = false → qs req = None) ∧
    (∃ rest, url req = realm_url c (realm_of k) +:+ rest).
Proof.
  intros Hk.
  destruct k; try discriminate Hk; cbn [invoke]; unfold_operations;
    (eexists; split;
     [intros w net Hp; rewrite (promise_request_run _ _ _ _ _ _ Hp); reflexivity|]);
    cbn [is_update is_find realm_of]; unfold method_of; cbn [is_create is_update is_remove];
    try match goal with |- context [if ?b then _ else _] => destruct b end;
    (repeat split; try done; try (by eexists)).
Qed.

(** What a call on an assembled client leaves behind: the private state as
    it was, the log longer by the call's requests, all of them under the
    call's realm. *)
Lemma wired_call_log c k net w p :
  wired c →
  privates w !! client_id c = Some p →
  ∃ reqs,
    (invoke c k net w).2 = World (privates w) (sent w ++ reqs) ∧
    (1 ≤ length reqs ≤ 2)%nat ∧
    (is_create k = false → length reqs = 1%nat) ∧
    Forall (λ r, ∃ rest, url r = realm_url c (realm_of k) +:+ rest) reqs.
Proof.
  intros [Hus Hip] Hp. destruct (is_create k) eqn:Hk.
  - assert (∃ post back,
      invoke c k net w
      = create_callback back (after_send w post) net (net (sent w) post) ∧
      (∃ rest, url post = realm_url c (realm_of k) +:+ rest) ∧
      ∀ uid, ∃ k', back uid = invoke c k' ∧ is_create k' = false ∧
                   realm_of k' = realm_of k)
      as (post & back & Hrun & Hurl & Hback).
    { destruct k; try discriminate Hk; cbn [invoke realm_of].
      - eexists _, _. split; [apply (user_storage_create_run _ _ _ _ _ _ Hp)|].
        split; [by eexists|]. intros uid.
        exists (UserStorage_find realmName (VObj [("id", VStr uid)])).
        by rewrite Hus.
      - eexists _, _. split; [apply (identity_provider_create_run _ _ _ _ _ _ Hp)|].
        split; [by eexists|]. intros uid.
        exists (IdentityProvider_find realmName (VObj [("alias", VStr uid)])).
        by rewrite Hip. }
    assert (Hone : ∃ reqs,
              after_send w post = World (privates w) (sent w ++ reqs) ∧
              (1 ≤ length reqs ≤ 2)%nat ∧ (true = false → length reqs = 1%nat) ∧
              Forall (λ r, ∃ rest, url r = realm_url c (realm_of k) +:+ rest) reqs).
    { exists [post]. split; [done|]. split; [simpl; lia|]. split; [done|].
      by repeat constructor. }
    rewrite Hrun. unfold create_callback.
    destruct (err _); [done|].
    destruct (resp _) as [rs|]; [|done].
    destruct (negb _); [done|].
    destruct (headers rs !! "location") as [location|]; [|done].
    destruct (Hback (location_uid location)) as (k' & -> & Hk' & Hrealm).
    destruct (simple_call_shape c k' p Hk') as (req & Hfind & _ & _ & _ & _ & Hurl').
    rewrite (Hfind (after_send w post) net Hp), Hrealm in *.
    exists [post; req]. split; [|split; [simpl; lia|split; [done|by repeat constructor]]].
    unfold after_send. cbn. by rewrite <- app_assoc.
  - destruct (simple_call_shape c k p Hk) as (req & Hrun & _ & _ & _ & _ & Hurl).
    exists [req]. rewrite (Hrun w net Hp).
    split; [done|]. split; [simpl; lia|]. split; [done|]. by repeat constructor.
Qed.

(** X1: every operation, on a client that has no private state: the promise is
    rejected with the TypeError of the failed token read and the world is
    left as it was, no request having been built. *)
Theorem no_private_state_no_request c k net w :
  privates w !! client_id c = None →
  invoke c k net w = (Rejected (RejThrown (TypeError "accessToken")), w) ∧
  sent (invoke c k net w).2 = sent w.
Proof.
  intros Hp. assert (Hrun : invoke c k net w
                            = (Rejected (RejThrown (TypeError "accessToken")), w))
    by (destruct k; by apply promise_request_no_private).
  by rewrite Hrun.
Qed.

Lemma no_private_state_no_request_witness :
  privates (World ∅ []) !! client_id example_client = None ∧
  invoke example_client (UserStorage_remove (VStr "master") (VStr "abc-123"))
    mock_server (World ∅ [])
  = (Rejected (RejThrown (TypeError "accessToken")), World ∅ []).
Proof.
  split; [reflexivity|].
  apply (no_private_state_no_request example_client
           (UserStorage_remove (VStr "master") (VStr "abc-123")) mock_server
           (World ∅ [])).
  reflexivity.
Defined.

(** X2: every operation other than [create] sends one request and settles on
    its reply alone: resolved with the body when the status is the expected
    one (200 for the finds, the four user-storage actions and
    exportConfiguration), rejected with the body otherwise. *)
Theorem call_settles_on_expected_status c k w p :
  is_create k = false →
  privates w !! client_id c = Some p →
  ∃ req, ∀ net rs b,
    net (sent w) req = Reply None (Some rs) b →
    (statusCode rs = expected_status k →
     invoke c k net w = (Resolved b, after_send w req)) ∧
    (statusCode rs ≠ expected_status k →
     invoke c k net w = (Rejected (RejBody b), after_send w req)).
Proof.
  intros Hk Hp. destruct (simple_call_run c k w p Hk Hp) as (req & Hrun & _).
  exists req. intros net rs b Hr. rewrite Hrun, Hr. split; intros Hs.
  - by rewrite settle_match.
  - by rewrite settle_mismatch.
Qed.

Lemma call_settles_on_expected_status_witness :
  is_create (IdentityProvider_exportConfiguration (VStr "master") (VStr "github")) = false ∧
  privates example_world !! client_id example_client = Some (Private "tok") ∧
  (invoke example_client
     (IdentityProvider_exportConfiguration (VStr "master") (VStr "github"))
     (always (Reply None (Some (Response 200 ∅)) (VObj [("clientId", VStr "x")])))
     example_world).1
  = Resolved (VObj [("clientId", VStr "x")]).
Proof.
  split; [reflexivity|]. split; [reflexivity|].
  destruct (call_settles_on_expected_status example_client
              (IdentityProvider_exportConfiguration (VStr "master") (VStr "github"))
              example_world (Private "tok") eq_refl eq_refl) as [req Hreq].
  destruct (Hreq (always (Reply None (Some (Response 200 ∅)) (VObj [("clientId", VStr "x")])))
              (Response 200 ∅) (VObj [("clientId", VStr "x")]) eq_refl) as [Hok _].
  by rewrite (Hok eq_refl).
Defined.

(** X3: every operation: when the transport calls back with neither an error
    nor a response, reading the status code throws inside the callback and
    the promise is never settled. *)
Theorem callback_without_response_throws c k w p :
  privates w !! client_id c = Some p →
  ∃ req, ∀ net b,
    net (sent w) req = Reply None None b →
    invoke c k net w = (Uncaught (TypeError "statusCode"), after_send w req).
Proof.
  intros Hp. destruct (is_create k) eqn:Hk.
  - destruct (create_call_run c k w p Hk Hp) as (post & Hrun & _).
    exists post. intros net b Hr. by rewrite Hrun, Hr.
  - destruct (simple_call_run c k w p Hk Hp) as (req & Hrun & _).
    exists req. intros net b Hr. by rewrite Hrun, Hr.
Qed.

Lemma callback_without_response_throws_witness :
  privates example_world !! client_id example_client = Some (Private "tok") ∧
  (invoke example_client (UserStorage_unlinkImportedUsers (VStr "master") (VStr "abc-123"))
     (always (Reply None None VUndefined)) example_world).1
  = Uncaught (TypeError "statusCode").
Proof.
  split; [reflexivity|].
  destruct (callback_without_response_throws example_client
              (UserStorage_unlinkImportedUsers (VStr "master") (VStr "abc-123"))
              example_world (Private "tok") eq_refl) as [req Hreq].
  by rewrite (Hreq _ VUndefined eq_refl).
Defined.

(** X4: two calls of operations other than [create], one after the other: each
    puts on the wire the request fixed by its own arguments and the token,
    whatever was sent before and whatever the transport answered; swapping
    the calls swaps the two requests and changes neither. *)
Theorem calls_do_not_interfere c k1 k2 p :
  is_create k1 = false →
  is_create k2 = false →
  ∃ req1 req2,
    ∀ w net net', privates w !! client_id c = Some p →
      sent (invoke c k2 net' (invoke c k1 net w).2).2 = (sent w ++ [req1; req2])%list ∧
      sent (invoke c k1 net' (invoke c k2 net w).2).2 = (sent w ++ [req2; req1])%list.
Proof.
  intros Hk1 Hk2.
  destruct (simple_call_shape c k1 p Hk1) as (req1 & Hrun1 & _).
  destruct (simple_call_shape c k2 p Hk2) as (req2 & Hrun2 & _).
  exists req1, req2. intros w net net' Hp.
  rewrite (Hrun1 w net Hp), (Hrun2 w net Hp). cbn [snd].
  rewrite (Hrun2 (after_send w req1) net' Hp), (Hrun1 (after_send w req2) net' Hp).
  cbn. by rewrite <- !app_assoc.
Qed.

Lemma calls_do_not_interfere_witness :
  is_create (UserStorage_find (VStr "master") VUndefined) = false ∧
  is_create (IdentityProvider_find (VStr "other") VUndefined) = false ∧
  ∃ req1 req2,
    ∀ w net net', privates w !! client_id example_client = Some (Private "tok") →
      sent (invoke example_client (IdentityProvider_find (VStr "other") VUndefined) net'
              (invoke example_client (UserStorage_find (VStr "master") VUndefined) net w).2).2
      = (sent w ++ [req1; req2])%list ∧
      sent (invoke example_client (UserStorage_find (VStr "master") VUndefined) net'
              (invoke example_client (IdentityProvider_find (VStr "other") VUndefined) net w).2).2
      = (sent w ++ [req2; req1])%list.
Proof.
  split; [reflexivity|]. split; [reflexivity|].
  apply (calls_do_not_interfere example_client
           (UserStorage_find (VStr "master") VUndefined)
           (IdentityProvider_find (VStr "other") VUndefined) (Private "tok"));
    reflexivity.
Defined.

(** X5: an operation other than [create] builds a descriptor whose method is
    PUT for an update, DELETE for a remove and absent otherwise, which
    carries a body only for an update and a query object only for a find. *)
Theorem descriptor_carries_no_more c k w p :
  is_create k = false →
  privates w !! client_id c = Some p →
  ∃ req,
    (∀ net, sent (invoke c k net w).2 = (sent w ++ [req])%list) ∧
    method req = method_of k ∧
    (is_update k = false → body req = None) ∧
    (is_update k = true → is_Some (body req)) ∧
    (is_find k = false → qs req = None).
Proof.
  intros Hk Hp.
  destruct (simple_call_shape c k p Hk) as (req & Hrun & Hm & Hb & Hb' & Hq & _).
  exists req. split; [|done]. intros net. by rewrite (Hrun w net Hp).
Qed.

Lemma descriptor_carries_no_more_witness :
  is_create (IdentityProvider_remove (VStr "master") (VStr "github")) = false ∧
  privates example_world !! client_id example_client = Some (Private "tok") ∧
  ∃ req,
    (∀ net, sent (invoke example_client
                    (IdentityProvider_remove (VStr "master") (VStr "github"))
                    net example_world).2 = (sent example_world ++ [req])%list) ∧
    method req = Some "DELETE" ∧ body req = None ∧ qs req = None.
Proof.
  split; [reflexivity|]. split; [reflexivity|].
  destruct (descriptor_carries_no_more example_client
              (IdentityProvider_remove (VStr "master") (VStr "github"))
              example_world (Private "tok") eq_refl eq_refl)
    as (req & Hsent & Hm & Hb & _ & Hq).
  exists req. split; [exact Hsent|]. split; [exact Hm|].
  split; [exact (Hb eq_refl) | exact (Hq eq_refl)].
Defined.

Lemma string_app_assoc (a b c : string) : (a +:+ b) +:+ c = a +:+ (b +:+ c).
Proof.
  induction a as [|ch a IH]; [reflexivity|].
  change (String ch ((a +:+ b) +:+ c) = String ch (a +:+ (b +:+ c))).
  by rewrite IH.
Qed.

(** X6: a call on an assembled client never writes the private state, only
    appends to what was sent (one request, or two for a [create]), and
    sends every request to a URL under its own realm of the client's base
    URL. *)
Theorem call_stays_in_its_realm c k net w p :
  wired c →
  privates w !! client_id c = Some p →
  ∃ reqs,
    privates (invoke c k net w).2 = privates w ∧
    sent (invoke c k net w).2 = (sent w ++ reqs)%list ∧
    (1 ≤ length reqs ≤ 2)%nat ∧
    (is_create k = false → length reqs = 1%nat) ∧
    Forall (λ r, ∃ rest, url r = baseUrl c +:+ "/admin/realms/" +:+ toString (realm_of k)
                                 +:+ rest) reqs.
Proof.
  intros Hw Hp.
  destruct (wired_call_log c k net w p Hw Hp) as (reqs & -> & Hlen & Hone & Hurl).
  exists reqs. repeat split; try done; try lia.
  eapply Forall_impl; [exact Hurl|]. intros r [rest ->]. exists rest.
  unfold realm_url. by rewrite string_app_assoc.
Qed.

Lemma call_stays_in_its_realm_witness :
  wired example_client ∧
  privates example_world !! client_id example_client = Some (Private "tok") ∧
  ∃ reqs,
    privates (invoke example_client
                (UserStorage_create (VStr "master") (VObj [("name", VStr "ldap")]))
                mock_server example_world).2 = privates example_world ∧
    sent (invoke example_client
            (UserStorage_create (VStr "master") (VObj [("name", VStr "ldap")]))
            mock_server example_world).2 = (sent example_world ++ reqs)%list ∧
    (1 ≤ length reqs ≤ 2)%nat ∧
    Forall (λ r, ∃ rest, url r = "https://host" +:+ "/admin/realms/" +:+ "master" +:+ rest)
      reqs.
Proof.
  split; [split; reflexivity|]. split; [reflexivity|].
  destruct (call_stays_in_its_realm example_client
              (UserStorage_create (VStr "master") (VObj [("name", VStr "ldap")]))
              mock_server example_world (Private "tok"))
    as (reqs & Hp & Hs & Hlen & _ & Hurl); [split; reflexivity | reflexivity |].
  exists reqs. split; [exact Hp|]. split; [exact Hs|]. split; [exact Hlen | exact Hurl].
Defined.

(** ** create, end to end *)

Lemma js_or_object props d : js_or (VObj props) d = VObj props.
Proof. reflexivity. Qed.

Lemma get_singleton k v : get (VObj [(k, v)]) k = v.
Proof. unfold get. cbn. by rewrite String.eqb_refl. Qed.

(** X7: a create call on an assembled client whose POST is answered 201 with a
    Location ending in a non-empty, slash-free segment sends, second, the GET
    of the single resource named by that segment, and settles as that GET
    does: resolved with its body on 200, rejected with its body on another
    status, rejected with its error when it fails. *)
Theorem create_settles_as_the_get c realmName entity net w p rs b pre uid :
  wired c →
  privates w !! client_id c = Some p →
  statusCode rs = 201 →
  headers rs !! "location" = Some (pre +:+ "/" +:+ uid) →
  header_text (pre +:+ "/" +:+ uid) = true →
  has_slash uid = false →
  uid ≠ "" →
  (∀ post read,
     post = Request (realm_url c realmName +:+ "/components") (accessToken p)
              (Some true) (Some "POST") (Some entity) None →
     read = Request (realm_url c realmName +:+ "/components/" +:+ uid) (accessToken p)
             (Some true) None None None →
     net (sent w) post = Reply None (Some rs) b →
     UserStorage.create c realmName entity net w
     = (settle 200 (net (sent w ++ [post])%list read),
        World (privates w) (sent w ++ [post; read]))) ∧
  (∀ post read,
     post = Request (realm_url c realmName +:+ "/identity-provider/instances")
              (accessToken p) (Some true) (Some "POST") (Some entity) None →
     read = Request (realm_url c realmName +:+ "/identity-provider/instances/" +:+ uid)
             (accessToken p) (Some true) None None None →
     net (sent w) post = Reply None (Some rs) b →
     IdentityProvider.create c realmName entity net w
     = (settle 200 (net (sent w ++ [post])%list read),
        World (privates w) (sent w ++ [post; read]))).
Proof.
  intros [Hus Hip] Hp Hs Hl Hline Hseg Huid.
  assert (Htruthy : truthy (VStr uid) = true).
  { cbn. by destruct uid. }
  split; intros post read -> -> Hr.
  - rewrite (user_storage_create_run _ _ _ _ _ _ Hp). cbv zeta.
    rewrite Hr, (create_callback_created _ _ _ _ _ _ Hs Hl).
    rewrite location_uid_last_segment, Hus by done.
    unfold UserStorage.find.
    rewrite (promise_request_run _ _ _ _ _ p) by exact Hp.
    rewrite js_or_object, !get_singleton, Htruthy.
    unfold after_send. cbn. by rewrite <- app_assoc.
  - rewrite (identity_provider_create_run _ _ _ _ _ _ Hp). cbv zeta.
    rewrite Hr, (create_callback_created _ _ _ _ _ _ Hs Hl).
    rewrite location_uid_last_segment, Hip by done.
    unfold IdentityProvider.find.
    rewrite (promise_request_run _ _ _ _ _ p) by exact Hp.
    rewrite js_or_object, !get_singleton, Htruthy.
    unfold after_send. cbn. by rewrite <- app_assoc.
Qed.

Lemma create_settles_as_the_get_witness :
  wired example_client ∧
  privates example_world !! client_id example_client = Some (Private "tok") ∧
  header_text ("https://host/admin/realms/master/components" +:+ "/" +:+ "abc-123") = true ∧
  has_slash "abc-123" = false ∧
  "abc-123" ≠ "" ∧
  UserStorage.create example_client (VStr "master") (VObj [("name", VStr "ldap")])
    forgetful_server example_world
  = (Rejected (RejBody (VObj [("error", VStr "not found")])),
     World (privates example_world)
       [ Request "https://host/admin/realms/master/components" "tok"
           (Some true) (Some "POST") (Some (VObj [("name", VStr "ldap")])) None;
         Request "https://host/admin/realms/master/components/abc-123" "tok"
           (Some true) None None None ]).
Proof.
  split; [split; reflexivity|]. split; [reflexivity|].
  split; [reflexivity|]. split; [reflexivity|]. split; [discriminate|].
  pose proof (create_settles_as_the_get example_client (VStr "master")
                (VObj [("name", VStr "ldap")]) forgetful_server example_world
                (Private "tok")
                (Response 201
                   {[ "location" := "https://host/admin/realms/master/components/abc-123" ]})
                VUndefined "https://host/admin/realms/master/components" "abc-123")
    as Hcreate.
  specialize (Hcreate ltac:(split; reflexivity)).
  do 5 specialize (Hcreate ltac:(reflexivity)).
  specialize (Hcreate ltac:(discriminate)).
  destruct Hcreate as [Hus _].
  by rewrite (Hus _ _ eq_refl eq_refl eq_refl).
Defined.

(** X8: a create call on an assembled client whose POST is answered 201 with a
    Location that ends in a slash takes the empty string as identifier, and
    its read-back, the identifier being falsy, is the GET of the whole
    collection with that empty identifier as query parameter. *)
Theorem create_with_trailing_slash_reads_the_collection
    c realmName entity net w p rs b pre :
  wired c →
  privates w !! client_id c = Some p →
  statusCode rs = 201 →
  headers rs !! "location" = Some (pre +:+ "/") →
  header_text (pre +:+ "/") = true →
  (∀ post read,
     post = Request (realm_url c realmName +:+ "/components") (accessToken p)
              (Some true) (Some "POST") (Some entity) None →
     read = Request (realm_url c realmName +:+ "/components?parent=" +:+ toString realmName
                     +:+ "&type=org.keycloak.storage.UserStorageProvider")
              (accessToken p) (Some true) None None (Some (VObj [("id", VStr "")])) →
     net (sent w) post = Reply None (Some rs) b →
     UserStorage.create c realmName entity net w
     = (settle 200 (net (sent w ++ [post])%list read),
        World (privates w) (sent w ++ [post; read]))) ∧
  (∀ post read,
     post = Request (realm_url c realmName +:+ "/identity-provider/instances")
              (accessToken p) (Some true) (Some "POST") (Some entity) None →
     read = Request (realm_url c realmName +:+ "/identity-provider/instances")
              (accessToken p) (Some true) None None (Some (VObj [("alias", VStr "")])) →
     net (sent w) post = Reply None (Some rs) b →
     IdentityProvider.create c realmName entity net w
     = (settle 200 (net (sent w ++ [post])%list read),
        World (privates w) (sent w ++ [post; read]))).
Proof.
  intros [Hus Hip] Hp Hs Hl Hline.
  assert (Huid : location_uid (pre +:+ "/") = "")
    by (by apply (location_uid_last_segment pre "")).
  split; intros post read -> -> Hr.
  - rewrite (user_storage_create_run _ _ _ _ _ _ Hp). cbv zeta.
    rewrite Hr, (create_callback_created _ _ _ _ _ _ Hs Hl), Huid, Hus.
    unfold UserStorage.find.
    rewrite (promise_request_run _ _ _ _ _ p) by exact Hp.
    rewrite js_or_object, !get_singleton.
    unfold after_send. cbn. by rewrite <- app_assoc.
  - rewrite (identity_provider_create_run _ _ _ _ _ _ Hp). cbv zeta.
    rewrite Hr, (create_callback_created _ _ _ _ _ _ Hs Hl), Huid, Hip.
    unfold IdentityProvider.find.
    rewrite (promise_request_run _ _ _ _ _ p) by exact Hp.
    rewrite js_or_object, !get_singleton.
    unfold after_send. cbn. by rewrite <- app_assoc.
Qed.

Lemma create_with_trailing_slash_reads_the_collection_witness :
  wired example_client ∧
  privates example_world !! client_id example_client = Some (Private "tok") ∧
  header_text ("https://host/admin/realms/master/identity-provider/instances" +:+ "/") = true ∧
  sent (IdentityProvider.create example_client (VStr "master")
          (VObj [("alias", VStr "github")])
          (always (Reply None
                     (Some (Response 201
                        {[ "location" :=
                             "https://host/admin/realms/master/identity-provider/instances/" ]}))
                     VUndefined))
          example_world).2
  = [ Request "https://host/admin/realms/master/identity-provider/instances" "tok"
        (Some true) (Some "POST") (Some (VObj [("alias", VStr "github")])) None;
      Request "https://host/admin/realms/master/identity-provider/instances" "tok"
        (Some true) None None (Some (VObj [("alias", VStr "")])) ].
Proof.
  split; [split; reflexivity|]. split; [reflexivity|]. split; [reflexivity|].
  pose proof (create_with_trailing_slash_reads_the_collection example_client (VStr "master")
                (VObj [("alias", VStr "github")])
                (always (Reply None
                           (Some (Response 201
                              {[ "location" :=
                                   "https://host/admin/realms/master/identity-provider/instances/" ]}))
                           VUndefined))
                example_world (Private "tok")
                (Response 201
                   {[ "location" :=
                        "https://host/admin/realms/master/identity-provider/instances/" ]})
                VUndefined "https://host/admin/realms/master/identity-provider/instances")
    as Hcreate.
  specialize (Hcreate ltac:(split; reflexivity)).
  do 4 specialize (Hcreate ltac:(reflexivity)).
  destruct Hcreate as [_ Hip].
  by rewrite (Hip _ _ eq_refl eq_refl eq_refl).
Defined.

(** ** The Location pattern beyond one clean segment *)

Module RegexLines.
Import Regex RegexSpec RegexFacts.

Abbreviation one_line := (forallb (λ ch, negb (is_line_terminator ch))).
Abbreviation slash_in := (existsb (λ ch : ascii, Ascii.eqb ch "/")).

(** A run of [Star Any] never crosses a line terminator: a continuation
    that fails on every text holding one is never satisfied. *)
Lemma greedy_any_broken {R} (k : list ascii → option (list ascii) → option R) s c :
  (∀ s', one_line s' = false → k s' c = None) →
  one_line s = false → greedy_any k s c = None.
Proof.
  intros Hk. induction s as [|ch s' IH]; intros Hs; [discriminate Hs|].
  cbn [greedy_any]. rewrite (Hk (ch :: s') Hs).
  destruct (is_line_terminator ch) eqn:Hch; [done|].
  simpl in Hs. rewrite Hch in Hs. by rewrite IH.
Qed.

Lemma after_run_broken t c : one_line t = false → after_run t c = None.
Proof.
  destruct t as [|ch t']; intros Ht; [discriminate Ht|].
  unfold after_run. rewrite m_Seq, m_Chr_cons.
  destruct (Ascii.eqb ch "/") eqn:Hch; [|done].
  apply Ascii.eqb_eq in Hch as ->. simpl in Ht.
  rewrite m_Seq, m_Grp, m_Star, star_any_greedy by done.
  apply greedy_any_broken; [|done]. intros s' Hs'. by destruct s'.
Qed.

Lemma location_re_broken t c : one_line t = false → m location_re t c found = None.
Proof.
  intros Ht. rewrite location_re_unfold.
  apply greedy_any_broken; [|done]. intros s' Hs'. by apply after_run_broken.
Qed.

(** No match starts before the last line terminator. *)
Lemma search_skips_broken head before lt line :
  is_line_terminator lt = true →
  search location_re before (head ++ lt :: line)
  = search location_re (rev (head ++ [lt]) ++ before) line.
Proof.
  intros Hlt. revert before. induction head as [|ch head IH]; intros before.
  - rewrite search_unfold, location_re_broken; [done|]. simpl. by rewrite Hlt.
  - rewrite search_unfold, location_re_broken.
    + cbn [app]. rewrite IH. f_equal. cbn [rev app]. by rewrite <- !app_assoc.
    + cbn [app forallb]. rewrite forallb_app. simpl. rewrite Hlt. simpl.
      by rewrite !andb_false_r.
Qed.

Lemma search_last_slash before pre seg :
  one_line (pre ++ "/"%char :: seg) = true →
  slash_in seg = false →
  search location_re before (pre ++ "/"%char :: seg) = Some (rev before, Some seg, []).
Proof.
  intros Hline Hseg.
  by rewrite search_unfold, (location_re_last_slash _ _ None Hline Hseg).
Qed.

(** A text with a slash splits at its last slash. *)
Lemma last_slash_split l :
  slash_in l = true →
  ∃ pre seg, l = (pre ++ "/"%char :: seg)%list ∧ slash_in seg = false.
Proof.
  induction l as [|ch l IH]; intros Hl; [discriminate Hl|].
  destruct (slash_in l) eqn:Hrest.
  - destruct (IH eq_refl) as (pre & seg & -> & Hseg). by exists (ch :: pre), seg.
  - simpl in Hl. rewrite Hrest, orb_false_r in Hl.
    apply Ascii.eqb_eq in Hl as ->. by exists [], l.
Qed.

Lemma string_of_list_ascii_app (a b : list ascii) :
  string_of_list_ascii (a ++ b)%list
  = string_of_list_ascii a +:+ string_of_list_ascii b.
Proof.
  induction a as [|ch a IH]; [reflexivity|].
  cbn [app string_of_list_ascii]. rewrite IH. reflexivity.
Qed.

End RegexLines.

(** X9: the identifier read off a Location value holds no slash, and reading an
    identifier off it again gives it back. *)
Theorem location_uid_is_one_segment (s : string) :
  header_text s = true →
  has_slash (location_uid s) = false ∧
  location_uid (location_uid s) = location_uid s.
Proof.
  intros Hline. destruct (has_slash s) eqn:Hslash.
  - unfold has_slash in Hslash.
    destruct (RegexLines.last_slash_split _ Hslash) as (pre & seg & Hs & Hseg).
    assert (Hstr : s = string_of_list_ascii pre +:+ "/" +:+ string_of_list_ascii seg).
    { rewrite <- (string_of_list_ascii_of_string s), Hs.
      by rewrite RegexLines.string_of_list_ascii_app. }
    assert (Hseg' : has_slash (string_of_list_ascii seg) = false).
    { unfold has_slash. by rewrite list_ascii_of_string_of_list_ascii. }
    rewrite Hstr in Hline |- *.
    rewrite (location_uid_last_segment _ _ Hline Hseg').
    split; [done | by apply location_uid_no_slash].
  - by rewrite !(location_uid_no_slash s Hslash).
Qed.

Lemma location_uid_is_one_segment_witness :
  header_text "https://host/admin/realms/master/components/abc-123" = true ∧
  has_slash (location_uid "https://host/admin/realms/master/components/abc-123") = false ∧
  location_uid (location_uid "https://host/admin/realms/master/components/abc-123")
  = location_uid "https://host/admin/realms/master/components/abc-123".
Proof.
  split; [reflexivity|].
  apply (location_uid_is_one_segment "https://host/admin/realms/master/components/abc-123").
  reflexivity.
Defined.

(** X10: the pattern looks at the last line only: in a text with a line
    terminator, everything up to and including the last one is kept; what
    follows it is cut down to its last segment if it has a slash and left
    alone if it has none. *)
Theorem location_uid_reads_the_last_line (head line : string) (lt : ascii) :
  Regex.is_line_terminator lt = true →
  header_text line = true →
  (has_slash line = false →
   location_uid (head +:+ String lt line) = head +:+ String lt line) ∧
  (∀ pre seg,
     line = pre +:+ "/" +:+ seg →
     has_slash seg = false →
     location_uid (head +:+ String lt line) = head +:+ String lt seg).
Proof.
  intros Hlt Hline.
  assert (Hsearch : Regex.search Regex.location_re []
                      (list_ascii_of_string (head +:+ String lt line))
                    = Regex.search Regex.location_re
                        (rev (list_ascii_of_string head ++ [lt]))
                        (list_ascii_of_string line)).
  { rewrite RegexFacts.list_ascii_of_string_app. cbn [list_ascii_of_string].
    rewrite (RegexLines.search_skips_broken _ _ _ _ Hlt). by rewrite app_nil_r. }
  unfold location_uid, Regex.replace_by_group. rewrite Hsearch. split.
  - intros Hslash. by rewrite RegexFacts.search_no_slash.
  - intros pre seg -> Hseg. unfold header_text, has_slash in *.
    rewrite !RegexFacts.list_ascii_of_string_app in *. cbn [list_ascii_of_string] in *.
    change (list_ascii_of_string pre ++ list_ascii_of_string ("/" +:+ seg))%list
      with (list_ascii_of_string pre ++ "/"%char :: list_ascii_of_string seg)%list in *.
    rewrite (RegexLines.search_last_slash _ _ _ Hline Hseg).
    cbn [default from_option id]. rewrite rev_involutive, app_nil_r.
    rewrite !RegexLines.string_of_list_ascii_app.
    cbn [string_of_list_ascii]. rewrite !string_of_list_ascii_of_string.
    by rewrite string_app_assoc.
Qed.

Lemma location_uid_reads_the_last_line_witness :
  Regex.is_line_terminator "010" = true ∧
  header_text "x/c" = true ∧
  has_slash "c" = false ∧
  location_uid ("a/b" +:+ String "010" "x/c") = "a/b" +:+ String "010" "c".
Proof.
  split; [reflexivity|]. split; [reflexivity|]. split; [reflexivity|].
  apply (proj2 (location_uid_reads_the_last_line "a/b" "x/c" "010" eq_refl eq_refl)
           "x" "c"); reflexivity.
Defined.

(** ** Defaulted and undefaulted arguments *)

(** X11: a find called without options, or with any falsy options
    ([undefined], [null], [false], [0], the empty string), lists the
    collection: the user-storage, identity-provider and authentication-flow
    finds each send their collection GET with the empty object as query
    parameters and settle on its reply against status 200. *)
Theorem find_without_options_lists_the_collection c realm flow options net w p :
  privates w !! client_id c = Some p →
  truthy options = false →
  (∀ req,
     req = Request (realm_url c realm +:+ "/components?parent=" +:+ toString realm
                    +:+ "&type=org.keycloak.storage.UserStorageProvider")
             (accessToken p) (Some true) None None (Some empty_object) →
     UserStorage.find c realm options net w
     = (settle 200 (net (sent w) req), after_send w req)) ∧
  (∀ req,
     req = Request (realm_url c realm +:+ "/identity-provider/instances")
             (accessToken p) (Some true) None None (Some empty_object) →
     IdentityProvider.find c realm options net w
     = (settle 200 (net (sent w) req), after_send w req)) ∧
  (∀ req,
     req = Request (realm_url c realm +:+ "/authentication/flows/" +:+ toString flow
                    +:+ "/executions")
             (accessToken p) (Some true) None None (Some empty_object) →
     AuthenticationFlows.find c realm flow options net w
     = (settle 200 (net (sent w) req), after_send w req)).
Proof.
  intros Hp Hfalsy.
  unfold UserStorage.find, IdentityProvider.find, AuthenticationFlows.find.
  rewrite !(promise_request_run _ _ _ _ _ _ Hp).
  unfold js_or. rewrite Hfalsy.
  repeat split; by intros req ->.
Qed.

Lemma find_without_options_lists_the_collection_witness :
  privates example_world !! client_id example_client = Some (Private "tok") ∧
  truthy VUndefined = false ∧
  UserStorage.find example_client (VStr "master") VUndefined mock_server example_world
  = (Resolved (VObj [("id", VStr "abc-123")]),
     World (privates example_world)
       [ Request ("https://host/admin/realms/master/components"
                  +:+ "?parent=master&type=org.keycloak.storage.UserStorageProvider")
           "tok" (Some true) None None (Some empty_object) ]).
Proof.
  split; [reflexivity|]. split; [reflexivity|].
  destruct (find_without_options_lists_the_collection example_client (VStr "master")
              (VStr "browser") VUndefined mock_server example_world (Private "tok")
              eq_refl eq_refl) as (Hus & _).
  by rewrite (Hus _ eq_refl).
Defined.

(** X12: the user-storage and identity-provider updates replace every falsy
    entity ([undefined], [null], [false], [0], the empty string) by the
    empty object and PUT it to the URL ending in [undefined]; the
    authentication-flow update does no such thing and sends the entity it
    was given, whatever it is. *)
Theorem falsy_entity_is_defaulted_by_two_updates_only c realmName flow entity net w p :
  privates w !! client_id c = Some p →
  truthy entity = false →
  (UserStorage.update c realmName entity net w).2
  = after_send w
      (Request (realm_url c realmName +:+ "/components/undefined") (accessToken p)
         (Some true) (Some "PUT") (Some empty_object) None) ∧
  (IdentityProvider.update c realmName entity net w).2
  = after_send w
      (Request (realm_url c realmName +:+ "/identity-provider/instances/undefined")
         (accessToken p) (Some true) (Some "PUT") (Some empty_object) None) ∧
  (AuthenticationFlows.update c realmName flow entity net w).2
  = after_send w
      (Request (realm_url c realmName +:+ "/authentication/flows/" +:+ toString flow
                +:+ "/executions")
         (accessToken p) (Some true) (Some "PUT") (Some entity) None).
Proof.
  intros Hp Hfalsy.
  unfold UserStorage.update, IdentityProvider.update, AuthenticationFlows.update.
  rewrite !(promise_request_run _ _ _ _ _ _ Hp).
  unfold js_or. rewrite Hfalsy. by repeat split.
Qed.

Lemma falsy_entity_is_defaulted_by_two_updates_only_witness :
  privates example_world !! client_id example_client = Some (Private "tok") ∧
  truthy VNull = false ∧
  sent (UserStorage.update example_client (VStr "master") VNull mock_server example_world).2
  = [ Request "https://host/admin/realms/master/components/undefined" "tok"
        (Some true) (Some "PUT") (Some empty_object) None ] ∧
  sent (AuthenticationFlows.update example_client (VStr "master") (VStr "browser") VNull
          mock_server example_world).2
  = [ Request "https://host/admin/realms/master/authentication/flows/browser/executions"
        "tok" (Some true) (Some "PUT") (Some VNull) None ].
Proof.
  split; [reflexivity|]. split; [reflexivity|].
  destruct (falsy_entity_is_defaulted_by_two_updates_only example_client (VStr "master")
              (VStr "browser") VNull mock_server example_world (Private "tok")
              eq_refl eq_refl) as (Hus & _ & Haf).
  by rewrite Hus, Haf.
Defined.
